(** * burputils: a shallow embedding of [BurpUtils] (src/burputils.py)

    [BurpUtils] is a Jython class that wraps Burp's [IExtensionHelpers].
    Its methods forward to the host helper, slice or index a byte array with
    an offset the host reports, call setters of an [IHttpRequestResponse]
    object, or spawn a process through [subprocess.Popen].

    The embedding keeps Python's dynamic view of the data: every argument
    and result is a [Val], the host objects live in a store, and a method is
    a computation in a state-and-exception monad over a [World] that holds
    the instance dictionary, the store, the log of calls that leave the
    module and the interpreter's standard streams. *)

From Stdlib Require Import ZArith List Strings.Ascii Strings.String Strings.Byte Lia.
From stdpp Require Import base option list gmap strings.

Local Open Scope string_scope.
Local Open Scope Z_scope.

(** ** Values *)

(** Store addresses of mutable objects. *)
Abbreviation loc := positive (only parsing).

(** Python exceptions that reach the caller.  [HostError] is a Java
    exception thrown by a host method, [OSError] comes from the process
    layer.  [DanglingRef] is a reference that is not allocated in the store:
    no Python program can build one, it only keeps the model total. *)
Inductive Exn :=
| TypeError
| IndexError
| AttributeError
| HostError (name : string)
| OSError (errno : Z)
| DanglingRef.

(** [IRequestInfo] / [IResponseInfo]: what the host's analysis reports. *)
Record Info := mkInfo {
  info_bodyOffset : Z;
  info_headers : list string
}.

Section Model.

(** The class [Headers] of the module [headers], which [getHeaders] imports
    and [createHTTPMessage] receives, is not part of src/: its objects are
    an abstract type and its three methods are parameters below. *)
Context {Headers : Type}.

Inductive Val :=
| VNone
| VBool (b : bool)
| VInt (n : Z)
| VStr (s : string)
| VBytes (b : list byte)            (* Java byte[] *)
| VStrings (l : list string)        (* java.util.List<String> *)
| VList (l : loc)                   (* a mutable Python list *)
| VReqResp (l : loc)                (* an IHttpRequestResponse object *)
| VInfo (i : Info)
| VHeaders (h : Headers).

(** The state of an [IHttpRequestResponse] object: one field per
    getter/setter pair of the host interface. *)
Record HttpRR := mkHttpRR {
  rr_request : Val;
  rr_response : Val;
  rr_comment : Val;
  rr_highlight : Val;
  rr_httpService : Val
}.

(** What a host method receives: a plain value, or an
    [IHttpRequestResponse] object together with its current state. *)
Inductive HostArg :=
| HVal (v : Val)
| HReqResp (l : loc) (o : HttpRR).

(** The host's [IExtensionHelpers] object, as far as this class calls it.
    Every method may throw. *)
Record Helper := mkHelper {
  h_analyzeRequest : HostArg -> Exn + Info;
  h_analyzeResponse : HostArg -> Exn + Info;
  h_buildHttpMessage : Val -> Val -> Exn + Val;
  h_base64Decode : Val -> Exn + Val;
  h_base64Encode : Val -> Exn + Val
}.

(** A finished child process: the bytes it wrote to each pipe. *)
Record Process := mkProcess {
  proc_stdout : list byte;
  proc_stderr : list byte
}.

(** Calls that leave the module, in the order they are made. *)
Inductive Event :=
| EvAnalyzeRequest (a : Val)
| EvAnalyzeResponse (a : Val)
| EvBuildHttpMessage (hdrs body : Val)
| EvBase64Decode (d : Val)
| EvBase64Encode (d : Val)
| EvGetRequest (l : loc)
| EvGetResponse (l : loc)
| EvSetRequest (l : loc) (m : Val)
| EvSetResponse (l : loc) (m : Val)
| EvPopen (argv : list string).

Record World := mkWorld {
  self_dict : gmap string Helper;       (* the instance's __dict__ *)
  rr_heap : gmap loc HttpRR;
  list_heap : gmap loc (list Val);
  trace : list Event;
  sys_stdout : list byte;
  sys_stderr : list byte
}.

Definition set_self (d : gmap string Helper) (w : World) : World :=
  mkWorld d (rr_heap w) (list_heap w) (trace w) (sys_stdout w) (sys_stderr w).
Definition set_rr_heap (h : gmap loc HttpRR) (w : World) : World :=
  mkWorld (self_dict w) h (list_heap w) (trace w) (sys_stdout w) (sys_stderr w).
Definition set_list_heap (h : gmap loc (list Val)) (w : World) : World :=
  mkWorld (self_dict w) (rr_heap w) h (trace w) (sys_stdout w) (sys_stderr w).
Definition log (e : Event) (w : World) : World :=
  mkWorld (self_dict w) (rr_heap w) (list_heap w) (trace w ++ [e])
          (sys_stdout w) (sys_stderr w).
Definition put_stdout (b : list byte) (w : World) : World :=
  mkWorld (self_dict w) (rr_heap w) (list_heap w) (trace w)
          (sys_stdout w ++ b) (sys_stderr w).

(** ** The monad of method bodies *)

Definition M (A : Type) : Type := World -> (Exn + A) * World.

Definition ret {A} (a : A) : M A := fun w => (inr a, w).
Definition raise {A} (e : Exn) : M A := fun w => (inl e, w).
Definition bind {A B} (m : M A) (k : A -> M B) : M B :=
  fun w => match m w with
           | (inr a, w') => k a w'
           | (inl e, w') => (inl e, w')
           end.
Definition lift {A} (r : Exn + A) : M A := fun w => (r, w).
Definition emit (e : Event) : M unit := fun w => (inr tt, log e w).

#[local] Notation "x <- m ;; k" := (bind m (fun x => k))
  (at level 100, m at next level, right associativity).
#[local] Notation "m ;;; k" := (bind m (fun _ => k))
  (at level 100, right associativity).

(** ** Python primitives *)

(** [operator.index]: what Python accepts where an integer is required. *)
Definition py_index (v : Val) : option Z :=
  match v with
  | VInt n => Some n
  | VBool b => Some (Z.b2z b)
  | _ => None
  end.

(** An element of a Java [byte[]] is a signed integer in Jython. *)
Definition byte_to_int (b : byte) : Z :=
  let n := Z.of_N (Byte.to_N b) in
  if 128 <=? n then n - 256 else n.

(** [s[i]] on a sequence of length [length l]. *)
Definition seq_item {A} (l : list A) (i : Z) : Exn + A :=
  let n := Z.of_nat (length l) in
  let j := if i <? 0 then i + n else i in
  if (0 <=? j) && (j <? n)
  then match l !! Z.to_nat j with
       | Some x => inr x
       | None => inl IndexError
       end
  else inl IndexError.

(** The start of the slice [s[i:]]: negative indices count from the end and
    the result is clipped to the sequence. *)
Definition slice_start (len i : Z) : Z :=
  if i <? 0 then Z.max 0 (i + len) else Z.min i len.

(** [s[i:]]. *)
Definition seq_from {A} (l : list A) (i : Z) : list A :=
  drop (Z.to_nat (slice_start (Z.of_nat (length l)) i)) l.

(** [list.insert(index, object)] on the elements: the position is clipped
    the way [slice_start] clips. *)
Definition list_insert_at {A} (i : Z) (x : A) (l : list A) : list A :=
  let j := Z.to_nat (slice_start (Z.of_nat (length l)) i) in
  take j l ++ x :: drop j l.

Definition exn_map {A B} (f : A -> B) (r : Exn + A) : Exn + B :=
  match r with
  | inr a => inr (f a)
  | inl e => inl e
  end.

(** [s[idx]]. *)
Definition py_getitem (s idx : Val) : M Val :=
  match py_index idx with
  | None => raise TypeError
  | Some i =>
    match s with
    | VBytes b => lift (exn_map (fun x => VInt (byte_to_int x)) (seq_item b i))
    | VStr t =>
      lift (exn_map (fun c => VStr (String c EmptyString))
                    (seq_item (list_ascii_of_string t) i))
    | VStrings l => lift (exn_map VStr (seq_item l i))
    | VList l =>
      fun w => match list_heap w !! l with
               | Some xs => (seq_item xs i, w)
               | None => (inl DanglingRef, w)
               end
    | _ => raise TypeError
    end
  end.

(** [s[idx:]].  Slicing a Python list builds a new list object. *)
Definition py_getslice_from (s idx : Val) : M Val :=
  match (match idx with VNone => Some 0 | _ => py_index idx end) with
  | None => raise TypeError
  | Some i =>
    match s with
    | VBytes b => ret (VBytes (seq_from b i))
    | VStr t =>
      ret (VStr (string_of_list_ascii (seq_from (list_ascii_of_string t) i)))
    | VStrings l => ret (VStrings (seq_from l i))
    | VList l =>
      fun w => match list_heap w !! l with
               | Some xs =>
                 let l' := fresh (dom (list_heap w)) in
                 (inr (VList l'),
                  set_list_heap (<[l' := seq_from xs i]> (list_heap w)) w)
               | None => (inl DanglingRef, w)
               end
    | _ => raise TypeError
    end
  end.

(** [lst.insert(index, object)], the method of Python lists: the first
    argument is the position, the second the element. *)
Definition py_list_insert (lst index object : Val) : M Val :=
  fun w =>
    match lst with
    | VList l =>
      match list_heap w !! l with
      | Some xs =>
        match py_index index with
        | Some i =>
          (inr VNone,
           set_list_heap (<[l := list_insert_at i object xs]> (list_heap w)) w)
        | None => (inl TypeError, w)
        end
      | None => (inl DanglingRef, w)
      end
    | _ => (inl AttributeError, w)
    end.

(** ** The host objects *)

(** [self.burpHelper]. *)
Definition self_burpHelper : M Helper :=
  fun w => match self_dict w !! "burpHelper" with
           | Some h => (inr h, w)
           | None => (inl AttributeError, w)
           end.

Definition host_arg (w : World) (v : Val) : HostArg :=
  match v with
  | VReqResp l =>
    match rr_heap w !! l with
    | Some o => HReqResp l o
    | None => HVal v
    end
  | _ => HVal v
  end.

Definition get_host_arg (v : Val) : M HostArg := fun w => (inr (host_arg w v), w).

Definition analyzeRequest (h : Helper) (a : Val) : M Val :=
  emit (EvAnalyzeRequest a) ;;;
  x <- get_host_arg a ;;
  lift (exn_map VInfo (h_analyzeRequest h x)).

Definition analyzeResponse (h : Helper) (a : Val) : M Val :=
  emit (EvAnalyzeResponse a) ;;;
  x <- get_host_arg a ;;
  lift (exn_map VInfo (h_analyzeResponse h x)).

Definition buildHttpMessage (h : Helper) (hdrs body : Val) : M Val :=
  emit (EvBuildHttpMessage hdrs body) ;;;
  lift (h_buildHttpMessage h hdrs body).

Definition helper_base64Decode (h : Helper) (d : Val) : M Val :=
  emit (EvBase64Decode d) ;;; lift (h_base64Decode h d).

Definition helper_base64Encode (h : Helper) (d : Val) : M Val :=
  emit (EvBase64Encode d) ;;; lift (h_base64Encode h d).

(** The object a value refers to, for a method call of
    [IHttpRequestResponse]. *)
Definition deref_rr (obj : Val) : M (loc * HttpRR) :=
  fun w => match obj with
           | VReqResp l =>
             match rr_heap w !! l with
             | Some o => (inr (l, o), w)
             | None => (inl DanglingRef, w)
             end
           | _ => (inl AttributeError, w)
           end.

Definition store_rr (l : loc) (o : HttpRR) : M unit :=
  fun w => (inr tt, set_rr_heap (<[l := o]> (rr_heap w)) w).

Definition rr_getRequest (obj : Val) : M Val :=
  p <- deref_rr obj ;;
  emit (EvGetRequest p.1) ;;;
  ret (rr_request p.2).

Definition rr_getResponse (obj : Val) : M Val :=
  p <- deref_rr obj ;;
  emit (EvGetResponse p.1) ;;;
  ret (rr_response p.2).

Definition with_request (m : Val) (o : HttpRR) : HttpRR :=
  mkHttpRR m (rr_response o) (rr_comment o) (rr_highlight o) (rr_httpService o).

Definition with_response (m : Val) (o : HttpRR) : HttpRR :=
  mkHttpRR (rr_request o) m (rr_comment o) (rr_highlight o) (rr_httpService o).

Definition rr_setRequest (obj m : Val) : M Val :=
  p <- deref_rr obj ;;
  emit (EvSetRequest p.1 m) ;;;
  store_rr p.1 (with_request m p.2) ;;;
  ret VNone.

Definition rr_setResponse (obj m : Val) : M Val :=
  p <- deref_rr obj ;;
  emit (EvSetResponse p.1 m) ;;;
  store_rr p.1 (with_response m p.2) ;;;
  ret VNone.

(** [info.getBodyOffset()] and [info.getHeaders()]. *)
Definition info_getBodyOffset (info : Val) : M Val :=
  match info with
  | VInfo i => ret (VInt (info_bodyOffset i))
  | _ => raise AttributeError
  end.

Definition info_getHeaders (info : Val) : M Val :=
  match info with
  | VInfo i => ret (VStrings (info_headers i))
  | _ => raise AttributeError
  end.

(** ** The class [headers.Headers] (parameters) *)

Variable Headers_new : Headers.
Variable Headers_importRaw : Headers -> Val -> Exn + Headers.
Variable Headers_exportRaw : Headers -> Exn + Val.

Definition hdr_importRaw (hdr raw : Val) : M Val :=
  match hdr with
  | VHeaders h => lift (exn_map VHeaders (Headers_importRaw h raw))
  | _ => raise AttributeError
  end.

Definition hdr_exportRaw (hdr : Val) : M Val :=
  match hdr with
  | VHeaders h => lift (Headers_exportRaw h)
  | _ => raise AttributeError
  end.

(** ** The process layer *)

(** What the operating system does with an argument vector: it refuses, or
    runs the program, whose output on both pipes is read to the end. *)
Variable os_spawn : list string -> Exn + Process.

Definition argv_of (xs : list Val) : option (list string) :=
  mapM (fun v => match v with VStr s => Some s | _ => None end) xs.

(** [Popen(args, stdout=PIPE, stderr=PIPE)]. *)
Definition Popen (args : Val) : M Process :=
  match args with
  | VList l =>
    fun w => match list_heap w !! l with
             | Some xs =>
               match argv_of xs with
               | Some argv => (os_spawn argv, log (EvPopen argv) w)
               | None => (inl TypeError, w)
               end
             | None => (inl DanglingRef, w)
             end
  | VStr s => fun w => (os_spawn [s], log (EvPopen [s]) w)
  | _ => raise TypeError
  end.

(** [sys.stdout.write(data)]. *)
Definition sys_stdout_write (data : Val) : M Val :=
  match data with
  | VBytes b => fun w => (inr VNone, put_stdout b w)
  | VStr s => fun w => (inr VNone, put_stdout (list_byte_of_string s) w)
  | _ => raise TypeError
  end.

(** ** The methods of [BurpUtils] *)

(** [BurpUtils.__init__]. *)
Definition __init__ (callbackHelper : Helper) : M Val :=
  fun w => (inr VNone, set_self (<["burpHelper" := callbackHelper]> (self_dict w)) w).

Definition getInfoFromBytes (isRequest : bool) (rawBytes : Val) : M Val :=
  if isRequest then
    h <- self_burpHelper ;; analyzeRequest h rawBytes
  else
    h <- self_burpHelper ;; analyzeResponse h rawBytes.

Definition getInfo (isRequest : bool) (requestResponse : Val) : M Val :=
  if isRequest then
    h <- self_burpHelper ;; analyzeRequest h requestResponse
  else
    h <- self_burpHelper ;;
    r <- rr_getResponse requestResponse ;;
    analyzeResponse h r.

Definition getBodyFromBytes (isRequest : bool) (rawBytes : Val) : M Val :=
  info <- getInfoFromBytes isRequest rawBytes ;;
  off <- info_getBodyOffset info ;;
  py_getitem rawBytes off.

Definition getBody (isRequest : bool) (requestResponse : Val) : M Val :=
  info <- getInfo isRequest requestResponse ;;
  if isRequest then
    m <- rr_getRequest requestResponse ;;
    off <- info_getBodyOffset info ;;
    py_getslice_from m off
  else
    m <- rr_getResponse requestResponse ;;
    off <- info_getBodyOffset info ;;
    py_getslice_from m off.

Definition getHeaders (info : Val) : M Val :=
  hdr <- ret (VHeaders Headers_new) ;;
  rawHdr <- info_getHeaders info ;;
  hdr' <- hdr_importRaw hdr rawHdr ;;
  ret hdr'.

Definition setRequestResponse (isRequest : bool) (message requestResponse : Val)
  : M Val :=
  if isRequest then
    rr_setRequest requestResponse message ;;; ret VNone
  else
    rr_setResponse requestResponse message ;;; ret VNone.

(** Lines 154-160 of [runExternal]: spawn, read both pipes, copy the
    child's standard error to [sys.stdout], return its standard output. *)
Definition runExternal_spawn (args : Val) : M Val :=
  proc <- Popen args ;;
  output <- ret (VBytes (proc_stdout proc)) ;;
  err <- ret (VBytes (proc_stderr proc)) ;;
  sys_stdout_write err ;;;
  ret output.

Definition runExternal (command args : Val) : M Val :=
  py_list_insert args command (VInt 0) ;;;
  runExternal_spawn args.

Definition createHTTPMessage (headers bodyBytes : Val) : M Val :=
  h <- self_burpHelper ;;
  raw <- hdr_exportRaw headers ;;
  buildHttpMessage h raw bodyBytes.

Definition base64Decode (base64Data : Val) : M Val :=
  h <- self_burpHelper ;; helper_base64Decode h base64Data.

Definition base64Encode (data : Val) : M Val :=
  h <- self_burpHelper ;; helper_base64Encode h data.

(** A call of a public method, with its arguments. *)
Inductive Call :=
| CallGetInfoFromBytes (isRequest : bool) (rawBytes : Val)
| CallGetInfo (isRequest : bool) (requestResponse : Val)
| CallGetBodyFromBytes (isRequest : bool) (rawBytes : Val)
| CallGetBody (isRequest : bool) (requestResponse : Val)
| CallGetHeaders (info : Val)
| CallSetRequestResponse (isRequest : bool) (message requestResponse : Val)
| CallRunExternal (command args : Val)
| CallCreateHTTPMessage (headers bodyBytes : Val)
| CallBase64Decode (base64Data : Val)
| CallBase64Encode (data : Val).

Definition call (c : Call) : M Val :=
  match c with
  | CallGetInfoFromBytes r b => getInfoFromBytes r b
  | CallGetInfo r o => getInfo r o
  | CallGetBodyFromBytes r b => getBodyFromBytes r b
  | CallGetBody r o => getBody r o
  | CallGetHeaders i => getHeaders i
  | CallSetRequestResponse r m o => setRequestResponse r m o
  | CallRunExternal c a => runExternal c a
  | CallCreateHTTPMessage h b => createHTTPMessage h b
  | CallBase64Decode d => base64Decode d
  | CallBase64Encode d => base64Encode d
  end.

(** A session: the calls an extension makes on one instance, one after the
    other; an exception does not end the instance's life. *)
Fixpoint session (cs : list Call) (w : World) : World :=
  match cs with
  | [] => w
  | c :: cs' => session cs' (call c w).2
  end.

(** A computation that leaves the instance's [__dict__] as it found it,
    whether it returns or raises. *)
Definition keeps_self {A} (m : M A) : Prop :=
  forall w, self_dict (m w).2 = self_dict w.

(** A computation that leaves one observation [f] of the world as it
    found it, whether it returns or raises. *)
Definition preserves {A X} (f : World -> X) (m : M A) : Prop :=
  forall w, f (m w).2 = f w.

Definition is_Popen (e : Event) : bool :=
  match e with
  | EvPopen _ => true
  | _ => false
  end.


(** The calls of a session that set the request or response of the object
    at [l]. *)
Definition sets_object (l : loc) (c : Call) : bool :=
  match c with
  | CallSetRequestResponse _ _ (VReqResp l') => bool_decide (l' = l)
  | _ => false
  end.

End Model.

(** ** A concrete host, for running the methods

    The host parses nothing but the blank line that ends the head of an
    HTTP message; its [Headers] objects are the raw header lines; its
    operating system knows two programs. *)

Definition CR : byte := "013"%byte.
Definition LF : byte := "010"%byte.

Fixpoint demo_body_offset (b : list byte) (n : Z) : Z :=
  match b with
  | [] => n
  | c :: t =>
    match t with
    | c2 :: c3 :: c4 :: _ =>
      if Byte.eqb c CR && Byte.eqb c2 LF && Byte.eqb c3 CR && Byte.eqb c4 LF
      then n + 4
      else demo_body_offset t (n + 1)
    | _ => demo_body_offset t (n + 1)
    end
  end.

Definition demo_analyze_bytes (v : @Val (list string)) : Exn + Info :=
  match v with
  | VBytes b => inr (mkInfo (demo_body_offset b 0) [])
  | VNone => inl (HostError "java.lang.NullPointerException")
  | _ => inl TypeError
  end.

Definition demo_analyzeRequest (a : @HostArg (list string)) : Exn + Info :=
  match a with
  | HVal v => demo_analyze_bytes v
  | HReqResp _ o => demo_analyze_bytes (rr_request o)
  end.

Definition demo_analyzeResponse (a : @HostArg (list string)) : Exn + Info :=
  match a with
  | HVal v => demo_analyze_bytes v
  | HReqResp _ _ => inl TypeError
  end.

Definition demo_helper : @Helper (list string) :=
  mkHelper demo_analyzeRequest demo_analyzeResponse
           (fun _ body => inr body) (fun d => inr d) (fun d => inr d).

Definition demo_importRaw (h : list string) (raw : @Val (list string))
  : Exn + list string :=
  match raw with
  | VStrings l => inr l
  | _ => inl TypeError
  end.

Definition demo_exportRaw (h : list string) : Exn + @Val (list string) :=
  inr (VStrings h).

Definition NL : string := String "010"%char EmptyString.

Definition demo_os (argv : list string) : Exn + Process :=
  match argv with
  | cmd :: rest =>
    if String.eqb cmd "echo" then
      inr (mkProcess (list_byte_of_string (String.concat " " rest ++ NL)) [])
    else if String.eqb cmd "ls" then
      inr (mkProcess []
             (list_byte_of_string
                ("ls: cannot access '" ++ String.concat " " rest
                 ++ "': No such file or directory" ++ NL)))
    else inl (OSError 2)
  | [] => inl IndexError
  end.

Definition demo_request : list byte :=
  list_byte_of_string "GET / HTTP/1.1" ++ [CR; LF; CR; LF]
  ++ list_byte_of_string "hello".

Definition demo_response : list byte :=
  list_byte_of_string "HTTP/1.1 200 OK" ++ [CR; LF; CR; LF]
  ++ list_byte_of_string "world".

Definition demo_rr : @HttpRR (list string) :=
  mkHttpRR (VBytes demo_request) (VBytes demo_response)
           (VStr "note") VNone (VStr "example.org").

(** The world of the examples: one instance built by [__init__], one
    [IHttpRequestResponse] object at address 1 and the Python list
    [["/nonexistent"]] at address 2. *)
Definition demo_world : @World (list string) :=
  (__init__ demo_helper
     (mkWorld ∅ {[1%positive := demo_rr]}
              {[2%positive := [VStr "/nonexistent"]]} [] [] [])).2.

(** The same world once the command has been put in front of the list at
    address 2, as the comment on line 151 describes. *)
Definition demo_world_inserted : @World (list string) :=
  set_list_heap (<[2%positive := [VStr "ls"; VStr "/nonexistent"]]>
                   (list_heap demo_world)) demo_world.

Definition demo_call : Call -> M Val :=
  call [] demo_importRaw demo_exportRaw demo_os.

(** * Properties *)

Section Properties.

Context {Headers : Type}.
Variable Headers_new : Headers.
Variable Headers_importRaw : Headers -> @Val Headers -> Exn + Headers.
Variable Headers_exportRaw : Headers -> Exn + @Val Headers.
Variable os_spawn : list string -> Exn + Process.

Local Abbreviation V := (@Val Headers).
Local Abbreviation W := (@World Headers).
Local Abbreviation call_ := (call Headers_new Headers_importRaw Headers_exportRaw os_spawn).
Local Abbreviation session_ :=
  (session Headers_new Headers_importRaw Headers_exportRaw os_spawn).

(** ** The instance dictionary is never written *)

Lemma keeps_ret {A} (a : A) : keeps_self (@ret Headers A a).
Proof. intros w. reflexivity. Qed.

Lemma keeps_raise {A} (e : Exn) : keeps_self (@raise Headers A e).
Proof. intros w. reflexivity. Qed.

Lemma keeps_lift {A} (r : Exn + A) : keeps_self (@lift Headers A r).
Proof. intros w. reflexivity. Qed.

Lemma keeps_emit (e : @Event Headers) : keeps_self (emit e).
Proof. intros w. reflexivity. Qed.

Lemma keeps_bind {A B} (m : @M Headers A) (k : A -> @M Headers B) :
  keeps_self m -> (forall a, keeps_self (k a)) -> keeps_self (bind m k).
Proof.
  intros Hm Hk w. unfold bind.
  specialize (Hm w). destruct (m w) as [[e|a] w1]; simpl in *.
  - exact Hm.
  - rewrite Hk. exact Hm.
Qed.

Lemma keeps_self_burpHelper : keeps_self (@self_burpHelper Headers).
Proof. intros w. unfold self_burpHelper. destruct (self_dict w !! _); reflexivity. Qed.

Lemma keeps_get_host_arg (v : V) : keeps_self (get_host_arg v).
Proof. intros w. reflexivity. Qed.

Lemma keeps_deref_rr (v : V) : keeps_self (deref_rr v).
Proof.
  intros w. unfold deref_rr. destruct v; try reflexivity.
  destruct (rr_heap w !! l); reflexivity.
Qed.

Lemma keeps_store_rr l (o : @HttpRR Headers) : keeps_self (store_rr l o).
Proof. intros w. reflexivity. Qed.

Lemma keeps_py_getitem (s idx : V) : keeps_self (py_getitem s idx).
Proof.
  intros w. unfold py_getitem.
  destruct (py_index idx); [|reflexivity].
  destruct s; try reflexivity.
  destruct (list_heap w !! l); reflexivity.
Qed.

Lemma keeps_py_getslice_from (s idx : V) : keeps_self (py_getslice_from s idx).
Proof.
  intros w. unfold py_getslice_from.
  destruct (match idx with VNone => Some 0 | _ => py_index idx end); [|reflexivity].
  destruct s; try reflexivity.
  destruct (list_heap w !! l); reflexivity.
Qed.

Lemma keeps_py_list_insert (lst index object : V) :
  keeps_self (py_list_insert lst index object).
Proof.
  intros w. unfold py_list_insert.
  destruct lst; try reflexivity.
  destruct (list_heap w !! l); [|reflexivity].
  destruct (py_index index); reflexivity.
Qed.

Lemma keeps_Popen (args : V) : keeps_self (Popen os_spawn args).
Proof.
  intros w. unfold Popen.
  destruct args; try reflexivity.
  destruct (list_heap w !! l); [|reflexivity].
  destruct (argv_of l0); reflexivity.
Qed.

Lemma keeps_sys_stdout_write (d : V) : keeps_self (sys_stdout_write d).
Proof. intros w. destruct d; reflexivity. Qed.

Lemma keeps_info_getBodyOffset (i : V) : keeps_self (info_getBodyOffset i).
Proof. intros w. destruct i; reflexivity. Qed.

Lemma keeps_info_getHeaders (i : V) : keeps_self (info_getHeaders i).
Proof. intros w. destruct i; reflexivity. Qed.

Lemma keeps_hdr_importRaw (h raw : V) :
  keeps_self (hdr_importRaw Headers_importRaw h raw).
Proof. intros w. destruct h; reflexivity. Qed.

Lemma keeps_hdr_exportRaw (h : V) : keeps_self (hdr_exportRaw Headers_exportRaw h).
Proof. intros w. destruct h; reflexivity. Qed.

Create HintDb keeps.
#[local] Hint Resolve keeps_ret keeps_raise keeps_lift keeps_emit
  keeps_self_burpHelper keeps_get_host_arg keeps_deref_rr keeps_store_rr
  keeps_py_getitem keeps_py_getslice_from keeps_py_list_insert keeps_Popen
  keeps_sys_stdout_write keeps_info_getBodyOffset keeps_info_getHeaders
  keeps_hdr_importRaw keeps_hdr_exportRaw : keeps.

(** Method bodies are sequences and branches of the primitives above. *)
Ltac keeps :=
  repeat first
    [ progress intros
    | apply keeps_bind
    | solve [ eauto with keeps ]
    | match goal with
      | |- keeps_self (if ?b then _ else _) => destruct b
      end ].

Lemma call_keeps_self (c : Call) : keeps_self (call_ c).
Proof.
  destruct c; simpl;
    unfold getInfoFromBytes, getInfo, getBodyFromBytes, getBody, getHeaders,
      setRequestResponse, runExternal, runExternal_spawn, createHTTPMessage,
      base64Decode, base64Encode, getInfoFromBytes, getInfo,
      analyzeRequest, analyzeResponse, buildHttpMessage, helper_base64Decode,
      helper_base64Encode, rr_getRequest, rr_getResponse, rr_setRequest,
      rr_setResponse;
    keeps.
Qed.

Lemma session_keeps_self (cs : list Call) (w : W) :
  self_dict (session_ cs w) = self_dict w.
Proof.
  revert w. induction cs as [|c cs IH]; intros w; simpl.
  - reflexivity.
  - rewrite IH. apply call_keeps_self.
Qed.

(** ** What each method does *)

(** [getInfoFromBytes] is one call of the helper: [analyzeRequest] for a
    request, [analyzeResponse] for a response, on the argument as given. *)
Lemma getInfoFromBytes_run (h : Helper) (w : W) (isRequest : bool) (rawBytes : V) :
  self_dict w !! "burpHelper" = Some h ->
  getInfoFromBytes isRequest rawBytes w =
    (exn_map VInfo
       ((if isRequest then h_analyzeRequest h else h_analyzeResponse h)
          (host_arg w rawBytes)),
     log (if isRequest then EvAnalyzeRequest rawBytes
          else EvAnalyzeResponse rawBytes) w).
Proof.
  intros Hh.
  destruct isRequest; unfold getInfoFromBytes, bind, self_burpHelper;
    rewrite Hh; reflexivity.
Qed.

(** [getInfo] on an object of the store. *)
Lemma getInfo_run (h : Helper) (w : W) (isRequest : bool) (l : loc) (o : HttpRR) :
  self_dict w !! "burpHelper" = Some h ->
  rr_heap w !! l = Some o ->
  getInfo isRequest (VReqResp l) w =
    if isRequest then
      (exn_map VInfo (h_analyzeRequest h (HReqResp l o)),
       log (EvAnalyzeRequest (VReqResp l)) w)
    else
      (exn_map VInfo (h_analyzeResponse h (host_arg w (rr_response o))),
       log (EvAnalyzeResponse (rr_response o)) (log (EvGetResponse l) w)).
Proof.
  intros Hh Ho.
  destruct isRequest;
    unfold getInfo, bind, self_burpHelper, analyzeRequest, analyzeResponse,
      rr_getResponse, deref_rr, bind, emit, get_host_arg, lift, ret;
    rewrite Hh; simpl; rewrite ?Ho; reflexivity.
Qed.

(** [runExternal] with a command string: [list.insert] receives the string
    as the position, raises [TypeError], and nothing else happens. *)
Lemma runExternal_raises (command : string) (l : loc) (xs : list V) (w : W) :
  list_heap w !! l = Some xs ->
  runExternal os_spawn (VStr command) (VList l) w = (inl TypeError, w).
Proof.
  intros Hl. unfold runExternal, bind, py_list_insert. rewrite Hl. reflexivity.
Qed.

(** Lines 154-160 on their own: one process with the list's strings as
    argument vector, its standard error copied to [sys.stdout], its standard
    output returned. *)
Lemma runExternal_spawn_run (l : loc) (xs : list V) (argv : list string)
      (p : Process) (w : W) :
  list_heap w !! l = Some xs ->
  argv_of xs = Some argv ->
  os_spawn argv = inr p ->
  runExternal_spawn os_spawn (VList l) w =
    (inr (VBytes (proc_stdout p)),
     put_stdout (proc_stderr p) (log (EvPopen argv) w)).
Proof.
  intros Hl Hargv Hos.
  unfold runExternal_spawn, bind, Popen. rewrite Hl, Hargv, Hos. reflexivity.
Qed.

(** An exception of the process layer leaves lines 154-160 unchanged. *)
Lemma runExternal_spawn_os_error (l : loc) (xs : list V) (argv : list string)
      (e : Exn) (w : W) :
  list_heap w !! l = Some xs ->
  argv_of xs = Some argv ->
  os_spawn argv = inl e ->
  (runExternal_spawn os_spawn (VList l) w).1 = inl e.
Proof.
  intros Hl Hargv Hos.
  unfold runExternal_spawn, bind, Popen. rewrite Hl, Hargv, Hos. reflexivity.
Qed.

(** [getBodyFromBytes] on a byte array: the element at the offset the host
    reports, or [IndexError]. *)
Lemma getBodyFromBytes_run (h : Helper) (w : W) (isRequest : bool)
      (b : list byte) (info : Info) :
  self_dict w !! "burpHelper" = Some h ->
  (if isRequest then h_analyzeRequest h else h_analyzeResponse h)
    (HVal (VBytes b)) = inr info ->
  (getBodyFromBytes isRequest (VBytes b) w).1 =
    exn_map (fun x => VInt (byte_to_int x)) (seq_item b (info_bodyOffset info)).
Proof.
  intros Hh Hinfo.
  unfold getBodyFromBytes, bind.
  rewrite (getInfoFromBytes_run h) by exact Hh.
  simpl host_arg. rewrite Hinfo. reflexivity.
Qed.

(** The wrappers of the helper's codec and message builder. *)
Lemma base64_run (h : Helper) (w : W) (d : V) :
  self_dict w !! "burpHelper" = Some h ->
  base64Decode d w = (h_base64Decode h d, log (EvBase64Decode d) w)
  /\ base64Encode d w = (h_base64Encode h d, log (EvBase64Encode d) w).
Proof.
  intros Hh.
  unfold base64Decode, base64Encode, bind, self_burpHelper.
  rewrite Hh. split; reflexivity.
Qed.

Lemma createHTTPMessage_run (h : Helper) (w : W) (hd : Headers) (raw body : V) :
  self_dict w !! "burpHelper" = Some h ->
  Headers_exportRaw hd = inr raw ->
  createHTTPMessage Headers_exportRaw (VHeaders hd) body w =
    (h_buildHttpMessage h raw body, log (EvBuildHttpMessage raw body) w).
Proof.
  intros Hh Hraw.
  unfold createHTTPMessage, bind, self_burpHelper, hdr_exportRaw, lift.
  rewrite Hh, Hraw. reflexivity.
Qed.

(** An exception thrown by the helper method a forwarding method calls is
    the method's own outcome. *)
Lemma host_exception_propagates (h : Helper) (w : W) (e : Exn) :
  self_dict w !! "burpHelper" = Some h ->
  (forall (r : bool) (b : V),
      (if r then h_analyzeRequest h else h_analyzeResponse h) (host_arg w b)
      = inl e ->
      (getInfoFromBytes r b w).1 = inl e
      /\ (getBodyFromBytes r b w).1 = inl e)
  /\ (forall d : V, h_base64Decode h d = inl e -> (base64Decode d w).1 = inl e)
  /\ (forall d : V, h_base64Encode h d = inl e -> (base64Encode d w).1 = inl e)
  /\ (forall (hd : Headers) (raw body : V),
         Headers_exportRaw hd = inr raw ->
         h_buildHttpMessage h raw body = inl e ->
         (createHTTPMessage Headers_exportRaw (VHeaders hd) body w).1 = inl e).
Proof.
  intros Hh. split; [|split; [|split]].
  - intros r b Hr. split.
    + rewrite (getInfoFromBytes_run h) by exact Hh. simpl. rewrite Hr. reflexivity.
    + unfold getBodyFromBytes, bind.
      rewrite (getInfoFromBytes_run h) by exact Hh. rewrite Hr. reflexivity.
  - intros d Hd. rewrite (proj1 (base64_run h w d Hh)). exact Hd.
  - intros d Hd. rewrite (proj2 (base64_run h w d Hh)). exact Hd.
  - intros hd raw body Hraw Hb.
    rewrite (createHTTPMessage_run h w hd raw body Hh Hraw). exact Hb.
Qed.

(** ** Slices *)

Lemma seq_from_suffix {A} (l : list A) (i : Z) : seq_from l i `suffix_of` l.
Proof. unfold seq_from. apply suffix_drop. Qed.

Lemma seq_from_nonneg {A} (l : list A) (i : Z) :
  0 <= i -> seq_from l i = drop (Z.to_nat i) l.
Proof.
  intros Hi. unfold seq_from, slice_start.
  destruct (Z.ltb_spec i 0) as [?|_]; [lia|].
  destruct (Z.le_gt_cases i (Z.of_nat (length l))) as [Hle|Hgt].
  - rewrite Z.min_l by lia. reflexivity.
  - rewrite Z.min_r by lia. rewrite Nat2Z.id.
    rewrite !drop_ge by lia. reflexivity.
Qed.

(** ** The claims *)

(** C4. On a byte array, [getInfoFromBytes] returns exactly what the
    helper's [analyzeRequest] returns when the flag is true and exactly what
    [analyzeResponse] returns when it is false; the array is the argument of
    that call as it was given, and the call is the only one that leaves the
    module. *)
Theorem getInfoFromBytes_forwards (h : Helper) (w : W) (b : list byte) :
  self_dict w !! "burpHelper" = Some h ->
  getInfoFromBytes true (VBytes b) w =
    (exn_map VInfo (h_analyzeRequest h (HVal (VBytes b))),
     log (EvAnalyzeRequest (VBytes b)) w)
  /\ getInfoFromBytes false (VBytes b) w =
    (exn_map VInfo (h_analyzeResponse h (HVal (VBytes b))),
     log (EvAnalyzeResponse (VBytes b)) w)
  /\ trace (getInfoFromBytes true (VBytes b) w).2
     = (trace w ++ [EvAnalyzeRequest (VBytes b)])%list
  /\ trace (getInfoFromBytes false (VBytes b) w).2
     = (trace w ++ [EvAnalyzeResponse (VBytes b)])%list.
Proof.
  intros Hh.
  rewrite !(getInfoFromBytes_run h) by exact Hh.
  repeat split.
Qed.

(** C9. [getInfo] is not symmetric in the flag.  For a request the
    [IHttpRequestResponse] object itself is the argument of the helper's
    [analyzeRequest]; for a response the method first calls the object's
    [getResponse] and hands only the value it got to [analyzeResponse]. *)
Theorem getInfo_asymmetric (h : Helper) (w : W) (l : loc) (o : HttpRR) :
  self_dict w !! "burpHelper" = Some h ->
  rr_heap w !! l = Some o ->
  getInfo true (VReqResp l) w =
    (exn_map VInfo (h_analyzeRequest h (HReqResp l o)),
     log (EvAnalyzeRequest (VReqResp l)) w)
  /\ getInfo false (VReqResp l) w =
    (exn_map VInfo (h_analyzeResponse h (host_arg w (rr_response o))),
     log (EvAnalyzeResponse (rr_response o)) (log (EvGetResponse l) w))
  /\ trace (getInfo true (VReqResp l) w).2
     = (trace w ++ [EvAnalyzeRequest (VReqResp l)])%list
  /\ trace (getInfo false (VReqResp l) w).2
     = (trace w ++ [EvGetResponse l; EvAnalyzeResponse (rr_response o)])%list
  /\ (forall b, rr_response o = VBytes b ->
                host_arg w (rr_response o) = HVal (VBytes b)).
Proof.
  intros Hh Ho.
  rewrite !(getInfo_run h w _ l o Hh Ho).
  repeat split.
  - simpl. rewrite <- app_assoc. reflexivity.
  - intros b ->. reflexivity.
Qed.

(** C5. For an [IHttpRequestResponse] object whose message is a byte array
    that the host can analyse, [getBody] returns the part of
    [getRequest()] (flag true) or of [getResponse()] (flag false) from the
    body offset of the host's analysis on: a suffix of the message, which
    for an offset that is not negative is the message without its first
    [offset] bytes. *)
Theorem getBody_suffix (h : Helper) (w : W) (l : loc) (o : HttpRR)
        (isRequest : bool) (msg : list byte) (info : Info) :
  self_dict w !! "burpHelper" = Some h ->
  rr_heap w !! l = Some o ->
  (if isRequest then rr_request o else rr_response o) = VBytes msg ->
  (if isRequest then h_analyzeRequest h (HReqResp l o)
   else h_analyzeResponse h (HVal (VBytes msg))) = inr info ->
  (getBody isRequest (VReqResp l) w).1
    = inr (VBytes (seq_from msg (info_bodyOffset info)))
  /\ seq_from msg (info_bodyOffset info) `suffix_of` msg
  /\ (0 <= info_bodyOffset info ->
      seq_from msg (info_bodyOffset info)
      = drop (Z.to_nat (info_bodyOffset info)) msg).
Proof.
  intros Hh Ho Hmsg Hinfo.
  split; [|split; [apply seq_from_suffix | apply seq_from_nonneg]].
  unfold getBody, bind.
  rewrite (getInfo_run h w isRequest l o Hh Ho).
  destruct isRequest.
  - rewrite Hinfo. simpl.
    unfold rr_getRequest, bind, deref_rr. simpl. rewrite Ho. simpl.
    rewrite Hmsg. reflexivity.
  - rewrite Hmsg. simpl host_arg. rewrite Hinfo. simpl.
    unfold rr_getResponse, bind, deref_rr. simpl. rewrite Ho. simpl.
    rewrite Hmsg. reflexivity.
Qed.

(** C6. [setRequestResponse] returns [None]; it stores the message in the
    request field of the object when the flag is true and in the response
    field when it is false, by one call of the matching setter; the other
    fields of the object, the other objects and the rest of the world stay
    as they were. *)
Theorem setRequestResponse_frame (w : W) (l : loc) (o : HttpRR)
        (isRequest : bool) (message : V) :
  rr_heap w !! l = Some o ->
  let r := setRequestResponse isRequest message (VReqResp l) w in
  r.1 = inr VNone
  /\ (exists o',
        rr_heap r.2 !! l = Some o'
        /\ (if isRequest
            then rr_request o' = message /\ rr_response o' = rr_response o
            else rr_response o' = message /\ rr_request o' = rr_request o)
        /\ rr_comment o' = rr_comment o
        /\ rr_highlight o' = rr_highlight o
        /\ rr_httpService o' = rr_httpService o)
  /\ (forall l', l' <> l -> rr_heap r.2 !! l' = rr_heap w !! l')
  /\ trace r.2 = (trace w ++ [if isRequest then EvSetRequest l message
                              else EvSetResponse l message])%list
  /\ self_dict r.2 = self_dict w
  /\ list_heap r.2 = list_heap w
  /\ sys_stdout r.2 = sys_stdout w
  /\ sys_stderr r.2 = sys_stderr w.
Proof.
  intros Ho r. subst r.
  destruct isRequest;
    unfold setRequestResponse, rr_setRequest, rr_setResponse, bind, deref_rr;
    rewrite Ho; simpl.
  - repeat split.
    + exists (with_request message o). rewrite lookup_insert_eq. repeat split.
    + intros l' Hne. rewrite lookup_insert_ne by congruence. reflexivity.
  - repeat split.
    + exists (with_response message o). rewrite lookup_insert_eq. repeat split.
    + intros l' Hne. rewrite lookup_insert_ne by congruence. reflexivity.
Qed.

(** C7. [__init__] on a new instance leaves exactly one attribute,
    [burpHelper], bound to the helper it was given; no call of a public
    method, returning or raising, changes the instance dictionary, so after
    any sequence of calls it is still that one binding. *)
Theorem instance_state_invariant (callbackHelper : Helper) (w : W)
        (c : Call) (cs : list Call) :
  let w1 := (__init__ callbackHelper (set_self ∅ w)).2 in
  self_dict w1 = {["burpHelper" := callbackHelper]}
  /\ dom (self_dict w1) = ({["burpHelper"]} : gset string)
  /\ self_dict (call_ c w1).2 = self_dict w1
  /\ self_dict (session_ cs w1) = {["burpHelper" := callbackHelper]}.
Proof.
  intros w1.
  assert (H1 : self_dict w1 = {["burpHelper" := callbackHelper]}).
  { subst w1. simpl. apply insert_empty. }
  split; [exact H1|].
  split; [rewrite H1; apply dom_singleton_L|].
  split; [apply call_keeps_self|].
  rewrite session_keeps_self. exact H1.
Qed.

(** ** Further properties of the methods *)

(** A list that holds an integer is no argument vector. *)
Lemma argv_of_with_int (l1 l2 : list V) (n : Z) :
  argv_of (l1 ++ VInt n :: l2) = None.
Proof.
  unfold argv_of. apply mapM_None_2.
  apply Exists_app. right. apply Exists_cons_hd. reflexivity.
Qed.

(** The outcome of [runExternal] on any arguments. *)
Lemma runExternal_outcome (command args : V) (w : W) :
  let r := runExternal os_spawn command args w in
  (exists e, r.1 = inl e)
  /\ trace r.2 = trace w
  /\ sys_stdout r.2 = sys_stdout w
  /\ sys_stderr r.2 = sys_stderr w
  /\ rr_heap r.2 = rr_heap w
  /\ self_dict r.2 = self_dict w.
Proof.
  assert (Hraise : forall (e : Exn) (w' : W),
             trace w' = trace w -> sys_stdout w' = sys_stdout w ->
             sys_stderr w' = sys_stderr w -> rr_heap w' = rr_heap w ->
             self_dict w' = self_dict w ->
             let r : (Exn + V) * W := (inl e, w') in
             (exists e', r.1 = inl e')
             /\ trace r.2 = trace w /\ sys_stdout r.2 = sys_stdout w
             /\ sys_stderr r.2 = sys_stderr w /\ rr_heap r.2 = rr_heap w
             /\ self_dict r.2 = self_dict w).
  { intros e w' ? ? ? ? ?. simpl. repeat split; eauto. }
  simpl. unfold runExternal, bind, py_list_insert.
  destruct args; try (apply Hraise; reflexivity).
  destruct (list_heap w !! l) as [xs|] eqn:Hl; [|apply Hraise; reflexivity].
  destruct (py_index command) as [i|]; [|apply Hraise; reflexivity].
  unfold runExternal_spawn, bind, Popen. simpl.
  rewrite lookup_insert_eq. unfold list_insert_at.
  rewrite argv_of_with_int. apply Hraise; reflexivity.
Qed.




(** [s[i]] for an index that is not negative is the head of [s[i:]]; it
    is out of range when that slice is empty. *)
Lemma seq_item_drop {A} (l : list A) (i : Z) :
  0 <= i ->
  seq_item l i = match drop (Z.to_nat i) l with
                 | x :: _ => inr x
                 | [] => inl IndexError
                 end.
Proof.
  intros Hi. unfold seq_item.
  destruct (Z.ltb_spec i 0) as [?|_]; [lia|].
  destruct (Z.leb_spec 0 i) as [_|?]; [|lia]. simpl.
  destruct (Z.ltb_spec i (Z.of_nat (length l))) as [Hlt|Hge].
  - destruct (lookup_lt_is_Some_2 l (Z.to_nat i)) as [x Hx]; [lia|].
    rewrite Hx, (drop_S _ _ _ Hx). reflexivity.
  - rewrite drop_ge by lia. reflexivity.
Qed.

Lemma seq_item_below {A} (l : list A) (i : Z) :
  i < - Z.of_nat (length l) -> seq_item l i = inl IndexError.
Proof.
  intros Hi. unfold seq_item.
  destruct (Z.ltb_spec i 0) as [_|?]; [|lia].
  destruct (Z.leb_spec 0 (i + Z.of_nat (length l))) as [?|_]; [lia|].
  reflexivity.
Qed.

Lemma byte_to_int_range (x : byte) : -128 <= byte_to_int x <= 127.
Proof.
  unfold byte_to_int.
  pose proof (Byte.to_N_bounded x) as Hb.
  destruct (Z.leb_spec 128 (Z.of_N (Byte.to_N x))); lia.
Qed.

(** [getBody] on an object of the store, once the host has analysed it. *)
Lemma getBody_run (h : Helper) (w : W) (isRequest : bool) (l : loc)
      (o : HttpRR) (info : Info) :
  self_dict w !! "burpHelper" = Some h ->
  rr_heap w !! l = Some o ->
  (if isRequest then h_analyzeRequest h (HReqResp l o)
   else h_analyzeResponse h (host_arg w (rr_response o))) = inr info ->
  getBody isRequest (VReqResp l) w =
    py_getslice_from
      (if isRequest then rr_request o else rr_response o)
      (VInt (info_bodyOffset info))
      (if isRequest
       then log (EvGetRequest l) (log (EvAnalyzeRequest (VReqResp l)) w)
       else log (EvGetResponse l)
                (log (EvAnalyzeResponse (rr_response o))
                     (log (EvGetResponse l) w))).
Proof.
  intros Hh Ho Hinfo.
  unfold getBody, bind.
  rewrite (getInfo_run h w isRequest l o Hh Ho).
  destruct isRequest; rewrite Hinfo; simpl;
    unfold rr_getRequest, rr_getResponse, bind, deref_rr; simpl;
    rewrite Ho; reflexivity.
Qed.

(** The outcome of [getBody] for a response that is a byte array. *)
Lemma getBody_response_result (w : W) (l : loc) (o : HttpRR) (msg : list byte) :
  rr_heap w !! l = Some o ->
  rr_response o = VBytes msg ->
  (getBody false (VReqResp l) w).1 =
    match self_dict w !! "burpHelper" with
    | None => inl AttributeError
    | Some h =>
      match h_analyzeResponse h (HVal (VBytes msg)) with
      | inl e => inl e
      | inr info => inr (VBytes (seq_from msg (info_bodyOffset info)))
      end
    end.
Proof.
  intros Ho Hmsg.
  destruct (self_dict w !! "burpHelper") as [h|] eqn:Hh.
  - destruct (h_analyzeResponse h (HVal (VBytes msg))) as [e|info] eqn:Hi.
    + unfold getBody, bind. rewrite (getInfo_run h w false l o Hh Ho).
      rewrite Hmsg. simpl host_arg. rewrite Hi. reflexivity.
    + rewrite (getBody_run h w false l o info Hh Ho)
        by (rewrite Hmsg; exact Hi).
      rewrite Hmsg. reflexivity.
  - unfold getBody, getInfo, bind, self_burpHelper. rewrite Hh. reflexivity.
Qed.

(** X4. On a byte array [getBodyFromBytes] never returns a byte array.
    With the host's offset inside the array it returns the one byte at the
    offset as a signed integer; with the offset at or past the end (a
    message without body) or below minus the length it raises
    [IndexError]. *)
Theorem getBodyFromBytes_bounds (h : Helper) (w : W) (isRequest : bool)
        (b : list byte) (info : Info) :
  self_dict w !! "burpHelper" = Some h ->
  (if isRequest then h_analyzeRequest h else h_analyzeResponse h)
    (HVal (VBytes b)) = inr info ->
  let off := info_bodyOffset info in
  let n := Z.of_nat (length b) in
  let r := (getBodyFromBytes isRequest (VBytes b) w).1 in
  (0 <= off < n ->
   exists x, b !! Z.to_nat off = Some x
             /\ r = inr (VInt (byte_to_int x))
             /\ -128 <= byte_to_int x <= 127)
  /\ (n <= off -> r = inl IndexError)
  /\ (off < - n -> r = inl IndexError)
  /\ (forall out, r <> inr (VBytes out)).
Proof.
  intros Hh Hinfo off n r. subst r.
  rewrite (getBodyFromBytes_run h w isRequest b info Hh Hinfo).
  fold off. repeat split.
  - intros [H0 Hn].
    destruct (lookup_lt_is_Some_2 b (Z.to_nat off)) as [x Hx]; [subst n; lia|].
    exists x. split; [exact Hx|]. split; [|apply byte_to_int_range].
    rewrite seq_item_drop by exact H0. rewrite (drop_S _ _ _ Hx). reflexivity.
  - intros Hn. rewrite seq_item_drop by (subst n; lia).
    rewrite drop_ge by (subst n; lia). reflexivity.
  - intros Hn. rewrite seq_item_below by exact Hn. reflexivity.
  - intros out. destruct (seq_item b off); discriminate.
Qed.

(** X5. The two body methods on the same response, for a host offset that
    is not negative: when [getBody] returns a body that is not empty,
    [getBodyFromBytes] returns the first byte of that body and nothing
    more; when [getBody] returns the empty body, [getBodyFromBytes] raises
    [IndexError]. *)
Theorem getBodyFromBytes_is_head_of_getBody (h : Helper) (w : W) (l : loc)
        (o : HttpRR) (msg : list byte) (info : Info) :
  self_dict w !! "burpHelper" = Some h ->
  rr_heap w !! l = Some o ->
  rr_response o = VBytes msg ->
  h_analyzeResponse h (HVal (VBytes msg)) = inr info ->
  0 <= info_bodyOffset info ->
  exists body,
    (getBody false (VReqResp l) w).1 = inr (VBytes body)
    /\ (getBodyFromBytes false (VBytes msg) w).1 =
       match body with
       | x :: _ => inr (VInt (byte_to_int x))
       | [] => inl IndexError
       end.
Proof.
  intros Hh Ho Hmsg Hinfo Hoff.
  exists (seq_from msg (info_bodyOffset info)). split.
  - rewrite (getBody_response_result w l o msg Ho Hmsg), Hh, Hinfo. reflexivity.
  - rewrite (getBodyFromBytes_run h w false msg info Hh Hinfo).
    rewrite seq_item_drop by exact Hoff.
    rewrite seq_from_nonneg by exact Hoff.
    destruct (drop _ msg); reflexivity.
Qed.

(** X6. For a host offset that is not negative, the body [getBody] returns
    and the first [offset] bytes of the message put together are the
    message again; the body has [length - offset] bytes, and it is the
    empty byte array, not an error, when the offset is at or past the
    end. *)
Theorem getBody_reassemble (h : Helper) (w : W) (l : loc) (o : HttpRR)
        (isRequest : bool) (msg : list byte) (info : Info) :
  self_dict w !! "burpHelper" = Some h ->
  rr_heap w !! l = Some o ->
  (if isRequest then rr_request o else rr_response o) = VBytes msg ->
  (if isRequest then h_analyzeRequest h (HReqResp l o)
   else h_analyzeResponse h (HVal (VBytes msg))) = inr info ->
  0 <= info_bodyOffset info ->
  exists body,
    (getBody isRequest (VReqResp l) w).1 = inr (VBytes body)
    /\ (take (Z.to_nat (info_bodyOffset info)) msg ++ body)%list = msg
    /\ Z.of_nat (length body)
       = Z.max 0 (Z.of_nat (length msg) - info_bodyOffset info)
    /\ (Z.of_nat (length msg) <= info_bodyOffset info -> body = []).
Proof.
  intros Hh Ho Hmsg Hinfo Hoff.
  exists (drop (Z.to_nat (info_bodyOffset info)) msg).
  split; [|split; [apply take_drop | split]].
  - rewrite (getBody_run h w isRequest l o info Hh Ho).
    + rewrite Hmsg. simpl. rewrite seq_from_nonneg by exact Hoff. reflexivity.
    + destruct isRequest; [exact Hinfo|]. simpl in Hmsg.
      rewrite Hmsg. exact Hinfo.
  - rewrite length_drop. lia.
  - intros Hge. apply drop_ge. lia.
Qed.



(** X8. What [setRequestResponse] stores is what [getBody] reads: after
    storing a byte array as the request (or response) of an object,
    [getBody] with the same flag returns that array from the offset the
    host reports for the stored message. *)
Theorem setRequestResponse_then_getBody (h : Helper) (w : W) (l : loc)
        (o : HttpRR) (isRequest : bool) (msg : list byte) (info : Info) :
  self_dict w !! "burpHelper" = Some h ->
  rr_heap w !! l = Some o ->
  (if isRequest
   then h_analyzeRequest h (HReqResp l (with_request (VBytes msg) o))
   else h_analyzeResponse h (HVal (VBytes msg))) = inr info ->
  (getBody isRequest (VReqResp l)
           (setRequestResponse isRequest (VBytes msg) (VReqResp l) w).2).1
  = inr (VBytes (seq_from msg (info_bodyOffset info))).
Proof.
  intros Hh Ho Hinfo.
  set (o' := if isRequest then with_request (VBytes msg) o
             else with_response (VBytes msg) o).
  set (w1 := (setRequestResponse isRequest (VBytes msg) (VReqResp l) w).2).
  assert (Hh1 : self_dict w1 !! "burpHelper" = Some h).
  { subst w1. destruct isRequest;
      unfold setRequestResponse, rr_setRequest, rr_setResponse, bind, deref_rr;
      rewrite Ho; exact Hh. }
  assert (Ho1 : rr_heap w1 !! l = Some o').
  { subst w1 o'. destruct isRequest;
      unfold setRequestResponse, rr_setRequest, rr_setResponse, bind, deref_rr;
      rewrite Ho; simpl; apply lookup_insert_eq. }
  rewrite (getBody_run h w1 isRequest l o' info Hh1 Ho1).
  - subst o'. destruct isRequest; reflexivity.
  - subst o'. destruct isRequest; [exact Hinfo | exact Hinfo].
Qed.

(** X9. Replacing the request of an object does not change what [getBody]
    gives for its response: the response path hands the host the response
    bytes alone, so the outcome, value or exception, is the same before and
    after [setRequestResponse(True, ...)]. *)
Theorem setRequest_keeps_response_body (w : W) (l : loc) (o : HttpRR)
        (msg : list byte) (message : V) :
  rr_heap w !! l = Some o ->
  rr_response o = VBytes msg ->
  (getBody false (VReqResp l)
           (setRequestResponse true message (VReqResp l) w).2).1
  = (getBody false (VReqResp l) w).1.
Proof.
  intros Ho Hmsg.
  set (w1 := (setRequestResponse true message (VReqResp l) w).2).
  assert (Hw1 : self_dict w1 = self_dict w
                /\ rr_heap w1 !! l = Some (with_request message o)).
  { subst w1.
    unfold setRequestResponse, rr_setRequest, bind, deref_rr.
    rewrite Ho. simpl. split; [reflexivity | apply lookup_insert_eq]. }
  destruct Hw1 as [Hs Ho1].
  rewrite (getBody_response_result w1 l (with_request message o) msg Ho1 Hmsg).
  rewrite (getBody_response_result w l o msg Ho Hmsg).
  rewrite Hs. reflexivity.
Qed.

(** X10. On an instance without the attribute [burpHelper], every method
    that goes through the helper raises [AttributeError] before anything
    else is evaluated: no call leaves the module and the world is
    unchanged. *)
Theorem missing_helper (w : W) :
  self_dict w !! "burpHelper" = None ->
  (forall (r : bool) (v : V),
      getInfoFromBytes r v w = (inl AttributeError, w)
      /\ getInfo r v w = (inl AttributeError, w)
      /\ getBodyFromBytes r v w = (inl AttributeError, w)
      /\ getBody r v w = (inl AttributeError, w))
  /\ (forall hdrs body : V,
         createHTTPMessage Headers_exportRaw hdrs body w
         = (inl AttributeError, w))
  /\ (forall d : V,
         base64Decode d w = (inl AttributeError, w)
         /\ base64Encode d w = (inl AttributeError, w)).
Proof.
  intros Hh.
  split; [|split].
  - intros r v.
    repeat split; destruct r;
      unfold getBody, getBodyFromBytes, getInfo, getInfoFromBytes, bind,
        self_burpHelper;
      rewrite Hh; reflexivity.
  - intros hdrs body.
    unfold createHTTPMessage, bind, self_burpHelper. rewrite Hh. reflexivity.
  - intros d.
    unfold base64Decode, base64Encode, bind, self_burpHelper.
    rewrite Hh. split; reflexivity.
Qed.

(** [getHeaders] on an info object of the host. *)
Lemma getHeaders_frame_result (i : Info) (w : W) :
  getHeaders Headers_new Headers_importRaw (VInfo i) w =
    (exn_map VHeaders (Headers_importRaw Headers_new (VStrings (info_headers i))),
     w).
Proof.
  unfold getHeaders, bind, ret, info_getHeaders, hdr_importRaw, lift. simpl.
  destruct (Headers_importRaw _ _); reflexivity.
Qed.


(** X12. [getHeaders] followed by [createHTTPMessage]: when the [Headers]
    class imports the info's header list and exports some raw list again,
    the helper's [buildHttpMessage] is called once, with that raw list and
    the body as given, and its outcome is the outcome of the pair. *)
Theorem createHTTPMessage_of_getHeaders (h : Helper) (w : W) (i : Info)
        (hd : Headers) (raw body : V) :
  self_dict w !! "burpHelper" = Some h ->
  Headers_importRaw Headers_new (VStrings (info_headers i)) = inr hd ->
  Headers_exportRaw hd = inr raw ->
  bind (getHeaders Headers_new Headers_importRaw (VInfo i))
       (fun hdr => createHTTPMessage Headers_exportRaw hdr body) w
  = (h_buildHttpMessage h raw body, log (EvBuildHttpMessage raw body) w).
Proof.
  intros Hh Himp Hexp.
  unfold bind at 1.
  pose proof (getHeaders_frame_result i w) as Hg.
  rewrite Himp in Hg. rewrite Hg.
  apply (createHTTPMessage_run h w hd raw body Hh Hexp).
Qed.

(** ** Observations the methods leave alone *)

Section Frame.

(** An observation of the world that logging a call other than a spawn and
    changing Python lists do not affect. *)
Context {X : Type} (f : W -> X).
Hypothesis f_log : forall e w, is_Popen e = false -> f (log e w) = f w.
Hypothesis f_list : forall hp w, f (set_list_heap hp w) = f w.

Lemma preserves_ret {A} (a : A) : preserves f (@ret Headers A a).
Proof. intros w. reflexivity. Qed.

Lemma preserves_raise {A} (e : Exn) : preserves f (@raise Headers A e).
Proof. intros w. reflexivity. Qed.

Lemma preserves_lift {A} (r : Exn + A) : preserves f (@lift Headers A r).
Proof. intros w. reflexivity. Qed.

Lemma preserves_emit (e : @Event Headers) :
  is_Popen e = false -> preserves f (emit e).
Proof. intros He w. apply f_log, He. Qed.

Lemma preserves_bind {A B} (m : @M Headers A) (k : A -> @M Headers B) :
  preserves f m -> (forall a, preserves f (k a)) -> preserves f (bind m k).
Proof.
  intros Hm Hk w. unfold bind.
  specialize (Hm w). destruct (m w) as [[e|a] w1]; simpl in *.
  - exact Hm.
  - rewrite Hk. exact Hm.
Qed.

Lemma preserves_self_burpHelper : preserves f (@self_burpHelper Headers).
Proof.
  intros w. unfold self_burpHelper. destruct (self_dict w !! _); reflexivity.
Qed.

Lemma preserves_get_host_arg (v : V) : preserves f (get_host_arg v).
Proof. intros w. reflexivity. Qed.

Lemma preserves_deref_rr (v : V) : preserves f (deref_rr v).
Proof.
  intros w. unfold deref_rr. destruct v; try reflexivity.
  destruct (rr_heap w !! l); reflexivity.
Qed.

Lemma preserves_py_getitem (m idx : V) : preserves f (py_getitem m idx).
Proof.
  intros w. unfold py_getitem.
  destruct (py_index idx); [|reflexivity].
  destruct m; try reflexivity.
  destruct (list_heap w !! l); reflexivity.
Qed.

Lemma preserves_py_getslice_from (m idx : V) :
  preserves f (py_getslice_from m idx).
Proof.
  intros w. unfold py_getslice_from.
  destruct (match idx with VNone => Some 0 | _ => py_index idx end);
    [|reflexivity].
  destruct m; try reflexivity.
  destruct (list_heap w !! l); [apply f_list | reflexivity].
Qed.

Lemma preserves_info_getBodyOffset (i : V) : preserves f (info_getBodyOffset i).
Proof. intros w. destruct i; reflexivity. Qed.

Lemma preserves_info_getHeaders (i : V) : preserves f (info_getHeaders i).
Proof. intros w. destruct i; reflexivity. Qed.

Lemma preserves_hdr_importRaw (h raw : V) :
  preserves f (hdr_importRaw Headers_importRaw h raw).
Proof. intros w. destruct h; reflexivity. Qed.

Lemma preserves_hdr_exportRaw (h : V) :
  preserves f (hdr_exportRaw Headers_exportRaw h).
Proof. intros w. destruct h; reflexivity. Qed.

Create HintDb frame.
#[local] Hint Resolve preserves_ret preserves_raise preserves_lift
  preserves_emit preserves_self_burpHelper preserves_get_host_arg
  preserves_deref_rr preserves_py_getitem preserves_py_getslice_from
  preserves_info_getBodyOffset preserves_info_getHeaders
  preserves_hdr_importRaw preserves_hdr_exportRaw : frame.
#[local] Hint Extern 1 (is_Popen _ = false) => reflexivity : frame.

Ltac frame :=
  repeat first
    [ progress intros
    | apply preserves_bind
    | solve [ eauto with frame ]
    | match goal with
      | |- preserves _ (if ?b then _ else _) => destruct b
      end ].

(** The methods that only read: all but [setRequestResponse] and
    [runExternal]. *)
Lemma readers_preserve (c : Call) :
  match c with
  | CallSetRequestResponse _ _ _ | CallRunExternal _ _ => True
  | _ => preserves f (call_ c)
  end.
Proof.
  destruct c; simpl; try exact I;
    unfold getInfoFromBytes, getInfo, getBodyFromBytes, getBody, getHeaders,
      createHTTPMessage, base64Decode, base64Encode, getInfoFromBytes, getInfo,
      analyzeRequest, analyzeResponse, buildHttpMessage, helper_base64Decode,
      helper_base64Encode, rr_getRequest, rr_getResponse;
    frame.
Qed.


End Frame.



(** One call changes the object at [l] only if it sets it. *)
Lemma call_object_frame (l : loc) (c : Call) (w : W) :
  sets_object l c = false ->
  rr_heap (call_ c w).2 !! l = rr_heap w !! l.
Proof.
  intros Hc.
  pose proof (readers_preserve (fun w : W => rr_heap w !! l)
                               (fun _ _ _ => eq_refl) (fun _ _ => eq_refl) c)
    as R.
  destruct c; try (apply R).
  - simpl in *.
    destruct isRequest;
      unfold setRequestResponse, rr_setRequest, rr_setResponse, bind, deref_rr;
      (destruct requestResponse; try reflexivity);
      (destruct (rr_heap w !! l0) eqn:Hl0; [|reflexivity]);
      simpl; apply bool_decide_eq_false in Hc;
      rewrite lookup_insert_ne by exact Hc; reflexivity.
  - simpl.
    destruct (runExternal_outcome command args w) as (_ & _ & _ & _ & Hrr & _).
    rewrite Hrr. reflexivity.
Qed.

(** X13. An [IHttpRequestResponse] object changes only through
    [setRequestResponse] on that object: a session without such a call
    leaves it exactly as it was. *)
Theorem session_object_frame (l : loc) (cs : list Call) (w : W) :
  Forall (fun c => sets_object l c = false) cs ->
  rr_heap (session_ cs w) !! l = rr_heap w !! l.
Proof.
  intros Hcs. revert w.
  induction Hcs as [|c cs Hc _ IH]; intros w; simpl.
  - reflexivity.
  - rewrite IH. apply call_object_frame, Hc.
Qed.


(** X15. [__init__] decides which helper is used: after [__init__] with a
    helper, on a new instance or on one that held another helper, the
    forwarding methods give what that helper gives. *)
Theorem init_then_forward (callbackHelper : Helper) (w : W) (r : bool) (v : V) :
  let w1 := (__init__ callbackHelper w).2 in
  self_dict w1 !! "burpHelper" = Some callbackHelper
  /\ (getInfoFromBytes r v w1).1 =
     exn_map VInfo
       ((if r then h_analyzeRequest callbackHelper
         else h_analyzeResponse callbackHelper) (host_arg w v))
  /\ (base64Decode v w1).1 = h_base64Decode callbackHelper v
  /\ (base64Encode v w1).1 = h_base64Encode callbackHelper v.
Proof.
  intros w1.
  assert (Hh : self_dict w1 !! "burpHelper" = Some callbackHelper).
  { subst w1. simpl. apply lookup_insert_eq. }
  split; [exact Hh|]. split; [|split].
  - rewrite (getInfoFromBytes_run callbackHelper w1 r v Hh). reflexivity.
  - rewrite (proj1 (base64_run callbackHelper w1 v Hh)). reflexivity.
  - rewrite (proj2 (base64_run callbackHelper w1 v Hh)). reflexivity.
Qed.

(** X16. [getInfo] in terms of [getInfoFromBytes]: for a request the two
    are the same computation on any argument; for a response, on an
    initialised instance, [getInfo] is [getInfoFromBytes] on what the
    object's [getResponse] returns, with the same outcome and the same
    calls. *)
Theorem getInfo_via_getInfoFromBytes (h : Helper) (obj : V) (w : W) :
  self_dict w !! "burpHelper" = Some h ->
  getInfo true obj w = getInfoFromBytes true obj w
  /\ getInfo false obj w
     = bind (rr_getResponse obj) (getInfoFromBytes false) w.
Proof.
  intros Hh. split; [reflexivity|].
  unfold getInfo, getInfoFromBytes, rr_getResponse, bind, self_burpHelper,
    deref_rr, emit, ret.
  rewrite Hh.
  destruct obj; try reflexivity.
  destruct (rr_heap w !! l); simpl; [|reflexivity].
  rewrite Hh. reflexivity.
Qed.

End Properties.

(** ** The claims on the concrete host *)

Lemma getInfoFromBytes_forwards_witness :
  self_dict demo_world !! "burpHelper" = Some demo_helper
  /\ getInfoFromBytes true (VBytes demo_request) demo_world =
       (exn_map VInfo (h_analyzeRequest demo_helper (HVal (VBytes demo_request))),
        log (EvAnalyzeRequest (VBytes demo_request)) demo_world).
Proof.
  split; [reflexivity|].
  apply (getInfoFromBytes_forwards demo_helper demo_world demo_request).
  reflexivity.
Defined.

Lemma getInfo_asymmetric_witness :
  self_dict demo_world !! "burpHelper" = Some demo_helper
  /\ rr_heap demo_world !! 1%positive = Some demo_rr
  /\ trace (getInfo false (VReqResp 1) demo_world).2
     = [EvGetResponse 1; EvAnalyzeResponse (VBytes demo_response)]
  /\ trace (getInfo true (VReqResp 1) demo_world).2
     = [EvAnalyzeRequest (VReqResp 1)].
Proof.
  assert (H1 : self_dict demo_world !! "burpHelper" = Some demo_helper)
    by reflexivity.
  assert (H2 : rr_heap demo_world !! 1%positive = Some demo_rr) by reflexivity.
  split; [exact H1|]. split; [exact H2|].
  destruct (getInfo_asymmetric demo_helper demo_world 1 demo_rr H1 H2)
    as (_ & _ & Hreq & Hresp & _).
  split; [exact Hresp | exact Hreq].
Defined.

Lemma getBody_suffix_witness :
  self_dict demo_world !! "burpHelper" = Some demo_helper
  /\ rr_heap demo_world !! 1%positive = Some demo_rr
  /\ rr_response demo_rr = VBytes demo_response
  /\ h_analyzeResponse demo_helper (HVal (VBytes demo_response))
     = inr (mkInfo 19 [])
  /\ (getBody false (VReqResp 1) demo_world).1
     = inr (VBytes (seq_from demo_response 19)).
Proof.
  repeat (split; [reflexivity|]).
  apply (getBody_suffix demo_helper demo_world 1 demo_rr false demo_response
                        (mkInfo 19 []));
    reflexivity.
Defined.

Lemma setRequestResponse_frame_witness :
  rr_heap demo_world !! 1%positive = Some demo_rr
  /\ (setRequestResponse true (VBytes demo_response) (VReqResp 1) demo_world).1
     = inr VNone.
Proof.
  split; [reflexivity|].
  apply (setRequestResponse_frame demo_world 1 demo_rr true
                                  (VBytes demo_response)).
  reflexivity.
Defined.

(** The body of the demo request is [hello], the response's is [world]. *)
Example demo_getBody :
  (getBody true (VReqResp 1) demo_world).1
    = inr (VBytes (list_byte_of_string "hello"))
  /\ (getBody false (VReqResp 1) demo_world).1
    = inr (VBytes (list_byte_of_string "world")).
Proof. split; reflexivity. Qed.

(** C2. On the request [GET / HTTP/1.1 CR LF CR LF hello] the host reports
    body offset 18.  [getBodyFromBytes] returns the integer 104, the single
    element [rawBytes[18]] (the letter h), where the slice [rawBytes[18:]]
    is the five bytes of [hello]. *)
Theorem getBodyFromBytes_returns_element :
  h_analyzeRequest demo_helper (HVal (VBytes demo_request)) = inr (mkInfo 18 [])
  /\ (getBodyFromBytes true (VBytes demo_request) demo_world).1 = inr (VInt 104)
  /\ seq_from demo_request 18 = list_byte_of_string "hello"
  /\ (getBodyFromBytes true (VBytes demo_request) demo_world).1
     <> inr (VBytes (seq_from demo_request 18)).
Proof.
  split; [reflexivity|]. split; [reflexivity|]. split; [reflexivity|].
  vm_compute. discriminate.
Qed.

(** A message with an empty body makes the index run off the array. *)
Example getBodyFromBytes_empty_body :
  (getBodyFromBytes true
     (VBytes (list_byte_of_string "GET / HTTP/1.1" ++ [CR; LF; CR; LF])%list)
     demo_world).1
  = inl IndexError.
Proof. reflexivity. Qed.

(** C1. [runExternal("ls", ["/nonexistent"])]: the call raises [TypeError]
    in [args.insert(command, 0)], no process is spawned and nothing is
    returned, although the operating system would run the argument vector
    [ls /nonexistent]. *)
Theorem runExternal_spawns_nothing :
  let r := runExternal demo_os (VStr "ls") (VList 2) demo_world in
  r.1 = inl TypeError
  /\ trace r.2 = []
  /\ (exists p, demo_os ["ls"; "/nonexistent"] = inr p).
Proof.
  simpl.
  rewrite (runExternal_raises demo_os "ls" 2 [VStr "/nonexistent"] demo_world)
    by reflexivity.
  split; [reflexivity|]. split; [reflexivity|].
  eexists. reflexivity.
Qed.

(** C8. After [runExternal("ls", args)] the caller's list [args] is the
    list that was passed in: the insert raised before it changed it. *)
Theorem runExternal_leaves_args :
  list_heap demo_world !! 2%positive = Some [VStr "/nonexistent"]
  /\ list_heap (runExternal demo_os (VStr "ls") (VList 2) demo_world).2
       !! 2%positive
     = Some [VStr "/nonexistent"].
Proof.
  rewrite (runExternal_raises demo_os "ls" 2 [VStr "/nonexistent"] demo_world)
    by reflexivity.
  split; reflexivity.
Qed.

(** C10. The process [ls /nonexistent] writes to its standard error, yet
    after [runExternal("ls", ["/nonexistent"])] the interpreter's
    [sys.stdout] is as empty as before: the method raised before it spawned
    anything.  Lines 154-160 alone, run on the list the insert was meant to
    produce, do copy the child's standard error to [sys.stdout] and return
    only its standard output. *)
Theorem runExternal_writes_nothing :
  (exists p, demo_os ["ls"; "/nonexistent"] = inr p /\ proc_stderr p <> [])
  /\ sys_stdout demo_world = []
  /\ sys_stdout (runExternal demo_os (VStr "ls") (VList 2) demo_world).2 = []
  /\ (runExternal_spawn demo_os (VList 2) demo_world_inserted).1 = inr (VBytes [])
  /\ sys_stdout (runExternal_spawn demo_os (VList 2) demo_world_inserted).2
     = list_byte_of_string
         ("ls: cannot access '/nonexistent': No such file or directory" ++ NL)
  /\ sys_stderr (runExternal_spawn demo_os (VList 2) demo_world_inserted).2 = [].
Proof.
  split.
  { eexists. split; [reflexivity|]. vm_compute. discriminate. }
  split; [reflexivity|].
  split.
  { rewrite (runExternal_raises demo_os "ls" 2 [VStr "/nonexistent"] demo_world)
      by reflexivity.
    reflexivity. }
  repeat split.
Qed.

(** C3. [runExternal("echo", ["/nonexistent"])] with arguments of the
    documented types raises a [TypeError] of the method's own making: no
    call has left the module when it is raised, and the operating system
    would have run [echo /nonexistent] without an error. *)
Theorem runExternal_own_exception :
  let r := demo_call (CallRunExternal (VStr "echo") (VList 2)) demo_world in
  r.1 = inl TypeError
  /\ trace r.2 = trace demo_world
  /\ (exists p, demo_os ["echo"; "/nonexistent"] = inr p).
Proof.
  unfold demo_call. simpl.
  rewrite (runExternal_raises demo_os "echo" 2 [VStr "/nonexistent"] demo_world)
    by reflexivity.
  split; [reflexivity|]. split; [reflexivity|].
  eexists. reflexivity.
Qed.

(** ** Further properties on the concrete host *)



Lemma getBodyFromBytes_bounds_witness :
  self_dict demo_world !! "burpHelper" = Some demo_helper
  /\ h_analyzeRequest demo_helper (HVal (VBytes demo_request))
     = inr (mkInfo 18 [])
  /\ (forall out,
         (getBodyFromBytes true (VBytes demo_request) demo_world).1
         <> inr (VBytes out)).
Proof.
  split; [reflexivity|]. split; [reflexivity|].
  apply (getBodyFromBytes_bounds demo_helper demo_world true demo_request
                                 (mkInfo 18 []));
    reflexivity.
Defined.

Lemma getBodyFromBytes_is_head_of_getBody_witness :
  self_dict demo_world !! "burpHelper" = Some demo_helper
  /\ rr_heap demo_world !! 1%positive = Some demo_rr
  /\ rr_response demo_rr = VBytes demo_response
  /\ h_analyzeResponse demo_helper (HVal (VBytes demo_response))
     = inr (mkInfo 19 [])
  /\ 0 <= 19
  /\ exists body,
      (getBody false (VReqResp 1) demo_world).1 = inr (VBytes body)
      /\ (getBodyFromBytes false (VBytes demo_response) demo_world).1 =
         match body with
         | x :: _ => inr (VInt (byte_to_int x))
         | [] => inl IndexError
         end.
Proof.
  repeat (split; [reflexivity || lia|]).
  apply (getBodyFromBytes_is_head_of_getBody demo_helper demo_world 1 demo_rr
           demo_response (mkInfo 19 []));
    (reflexivity || (simpl; lia)).
Defined.

Lemma getBody_reassemble_witness :
  self_dict demo_world !! "burpHelper" = Some demo_helper
  /\ rr_heap demo_world !! 1%positive = Some demo_rr
  /\ rr_request demo_rr = VBytes demo_request
  /\ h_analyzeRequest demo_helper (HReqResp 1 demo_rr) = inr (mkInfo 18 [])
  /\ 0 <= 18
  /\ exists body,
      (getBody true (VReqResp 1) demo_world).1 = inr (VBytes body)
      /\ (take (Z.to_nat 18) demo_request ++ body)%list = demo_request
      /\ Z.of_nat (length body)
         = Z.max 0 (Z.of_nat (length demo_request) - 18)
      /\ (Z.of_nat (length demo_request) <= 18 -> body = []).
Proof.
  repeat (split; [reflexivity || lia|]).
  apply (getBody_reassemble demo_helper demo_world 1 demo_rr true demo_request
                            (mkInfo 18 []));
    (reflexivity || (simpl; lia)).
Defined.


Lemma setRequestResponse_then_getBody_witness :
  self_dict demo_world !! "burpHelper" = Some demo_helper
  /\ rr_heap demo_world !! 1%positive = Some demo_rr
  /\ h_analyzeResponse demo_helper (HVal (VBytes demo_request))
     = inr (mkInfo 18 [])
  /\ (getBody false (VReqResp 1)
        (setRequestResponse false (VBytes demo_request) (VReqResp 1)
                            demo_world).2).1
     = inr (VBytes (seq_from demo_request 18)).
Proof.
  repeat (split; [reflexivity|]).
  apply (setRequestResponse_then_getBody demo_helper demo_world 1 demo_rr false
           demo_request (mkInfo 18 []));
    reflexivity.
Defined.

Lemma setRequest_keeps_response_body_witness :
  rr_heap demo_world !! 1%positive = Some demo_rr
  /\ rr_response demo_rr = VBytes demo_response
  /\ (getBody false (VReqResp 1)
        (setRequestResponse true VNone (VReqResp 1) demo_world).2).1
     = (getBody false (VReqResp 1) demo_world).1.
Proof.
  repeat (split; [reflexivity|]).
  apply (setRequest_keeps_response_body demo_world 1 demo_rr demo_response
                                        VNone);
    reflexivity.
Defined.

Lemma missing_helper_witness :
  self_dict (set_self ∅ demo_world) !! "burpHelper" = None
  /\ base64Decode (VStr "aGk=") (set_self ∅ demo_world)
     = (inl AttributeError, set_self ∅ demo_world).
Proof.
  split; [reflexivity|].
  apply (missing_helper demo_exportRaw (set_self ∅ demo_world)).
  reflexivity.
Defined.

Lemma createHTTPMessage_of_getHeaders_witness :
  self_dict demo_world !! "burpHelper" = Some demo_helper
  /\ demo_importRaw [] (VStrings ["GET / HTTP/1.1"; "Host: example.org"])
     = inr ["GET / HTTP/1.1"; "Host: example.org"]
  /\ demo_exportRaw ["GET / HTTP/1.1"; "Host: example.org"]
     = inr (VStrings ["GET / HTTP/1.1"; "Host: example.org"])
  /\ trace
       (bind (getHeaders [] demo_importRaw
                (VInfo (mkInfo 37 ["GET / HTTP/1.1"; "Host: example.org"])))
             (fun hdr => createHTTPMessage demo_exportRaw hdr (VBytes []))
             demo_world).2
     = [EvBuildHttpMessage
          (VStrings ["GET / HTTP/1.1"; "Host: example.org"]) (VBytes [])].
Proof.
  repeat (split; [reflexivity|]).
  rewrite (createHTTPMessage_of_getHeaders [] demo_importRaw demo_exportRaw
             demo_helper demo_world
             (mkInfo 37 ["GET / HTTP/1.1"; "Host: example.org"])
             ["GET / HTTP/1.1"; "Host: example.org"]
             (VStrings ["GET / HTTP/1.1"; "Host: example.org"]) (VBytes []));
    reflexivity.
Defined.

Lemma session_object_frame_witness :
  Forall (fun c : @Call (list string) => sets_object 1 c = false)
         [CallRunExternal (VStr "ls") (VList 2);
          CallGetBody true (VReqResp 1);
          CallSetRequestResponse true VNone (VReqResp 3)]
  /\ rr_heap
       (session [] demo_importRaw demo_exportRaw demo_os
          [CallRunExternal (VStr "ls") (VList 2);
           CallGetBody true (VReqResp 1);
           CallSetRequestResponse true VNone (VReqResp 3)]
          demo_world) !! 1%positive
     = rr_heap demo_world !! 1%positive.
Proof.
  assert (H : Forall (fun c : @Call (list string) => sets_object 1 c = false)
                [CallRunExternal (VStr "ls") (VList 2);
                 CallGetBody true (VReqResp 1);
                 CallSetRequestResponse true VNone (VReqResp 3)]).
  { repeat constructor. }
  split; [exact H|].
  apply (session_object_frame [] demo_importRaw demo_exportRaw demo_os 1 _
                              demo_world H).
Defined.

Lemma getInfo_via_getInfoFromBytes_witness :
  self_dict demo_world !! "burpHelper" = Some demo_helper
  /\ getInfo false (VReqResp 1) demo_world
     = bind (rr_getResponse (VReqResp 1)) (getInfoFromBytes false) demo_world.
Proof.
  split; [reflexivity|].
  apply (getInfo_via_getInfoFromBytes demo_helper (VReqResp 1) demo_world).
  reflexivity.
Defined.
